(** * send-to-printer.c: the raw print job lifecycle

    A shallow embedding of [main] of [send-to-printer.c].  The program talks
    to the Windows spooler and to standard output; every such call is an
    event of an inductive interaction tree, and a run is the tree played
    against a handler that answers each call from the history of the run so
    far.  The trace of a run records every call with its arguments and its
    answer, in program order. *)

From Stdlib Require Import ZArith List String Ascii Bool Lia Sorted.
From Stdlib.Strings Require Import Byte.
From Stdlib Require Import DecimalString.
Import ListNotations.

Local Open Scope list_scope.
Local Open Scope string_scope.
Local Open Scope Z_scope.

(** ** C data *)

(** [BOOL] is [int], [DWORD] a 32-bit unsigned integer, [HANDLE] an opaque
    pointer; a C string pointer is [None] when it is [NULL]. *)
Definition BOOL := Z.
Definition DWORD := Z.
Definition HANDLE := Z.
Definition LPSTR := option string.

(** [!b] on an integer. *)
Definition lnot (b : Z) : bool := b =? 0.

(** The line feed of the C string escapes. *)
Definition nl : string := String (ascii_of_nat 10) EmptyString.

(** [DOC_INFO_1] of [winspool.h]. *)
Record DOC_INFO_1 := {
  pDocName : LPSTR;
  pOutputFile : LPSTR;
  pDatatype : LPSTR
}.

(** A character constant stored in an [unsigned char]. *)
Definition ch (c : ascii) : byte := byte_of_ascii c.

(** [unsigned char data[]], the ESC/POS test data. *)
Definition data : list byte :=
  [ x1b; x40;
    ch "T"; ch "E"; ch "S"; ch "T"; x0a;
    ch "L"; ch "i"; ch "n"; ch "e"; ch " "; ch "1"; x0a;
    ch "L"; ch "i"; ch "n"; ch "e"; ch " "; ch "2"; x0a;
    x0a; x0a; x0a; x0a;
    x1d; x56; x00 ].

(** [sizeof] of an array of [unsigned char]. *)
Definition sizeof (a : list byte) : DWORD := Z.of_nat (List.length a).

Definition dwDataSize : DWORD := sizeof data.

(** ** printf *)

(** A [DWORD] read back by [%d] as a 32-bit [int]. *)
Definition to_int (v : Z) : Z :=
  let w := v mod 2 ^ 32 in
  if w <? 2 ^ 31 then w else w - 2 ^ 32.

Definition dec (v : Z) : string := NilZero.string_of_int (Z.to_int v).

(** The text [printf] writes for a format and its arguments.  The only
    conversion the program uses is [%d]; a [%d] with no argument left
    writes nothing. *)
Fixpoint format (fmt : string) (args : list Z) : string :=
  match fmt with
  | EmptyString => EmptyString
  | String c rest =>
      if Ascii.eqb c "%" then
        match rest with
        | String d rest' =>
            if Ascii.eqb d "d" then
              match args with
              | a :: args' => dec (to_int a) ++ format rest' args'
              | [] => format rest' []
              end
            else String c (format rest args)
        | EmptyString => String c EmptyString
        end
      else String c (format rest args)
  end.

(** ** Calls and programs *)

(** The calls [main] makes, indexed by the type of their answer.  An
    out-parameter is part of the answer: [OpenPrinter] answers the [BOOL]
    and the handle stored through [&hPrinter], [WritePrinter] the [BOOL]
    and the count stored through [&dwBytesWritten]. *)
Inductive winE : Type -> Type :=
| OpenPrinter (pPrinterName : LPSTR) (pDefault : option Z) : winE (BOOL * HANDLE)
| StartDocPrinter (hPrinter : HANDLE) (Level : DWORD) (pDocInfo : DOC_INFO_1) : winE DWORD
| StartPagePrinter (hPrinter : HANDLE) : winE BOOL
| WritePrinter (hPrinter : HANDLE) (pBuf : list byte) (cbBuf : DWORD) : winE (BOOL * DWORD)
| EndPagePrinter (hPrinter : HANDLE) : winE BOOL
| EndDocPrinter (hPrinter : HANDLE) : winE BOOL
| ClosePrinter (hPrinter : HANDLE) : winE BOOL
| GetLastError : winE DWORD
| printf (fmt : string) (args : list Z) : winE unit.

(** A program: it returns, or makes a call and goes on with the answer. *)
Inductive prog (R : Type) : Type :=
| Ret (r : R)
| Vis {X : Type} (e : winE X) (k : X -> prog R).

Arguments Ret {R} r.
Arguments Vis {R X} e k.

(** Sequencing: [bind p f] runs [p], then [f] on what [p] returned. *)
Fixpoint bind {A B : Type} (p : prog A) (f : A -> prog B) : prog B :=
  match p with
  | Ret a => f a
  | Vis e k => Vis e (fun x => bind (k x) f)
  end.

(** A call as a program that returns its answer. *)
Definition trigger {X : Type} (e : winE X) : prog X := Vis e Ret.

Coercion trigger : winE >-> prog.

(** An [if] statement with no [else]. *)
Definition when (b : bool) (p : prog unit) : prog unit :=
  if b then p else Ret tt.

Declare Scope prog_scope.
Delimit Scope prog_scope with prog.
Notation "x <- p ;; k" := (bind p (fun x => k))
  (at level 61, p at next level, right associativity) : prog_scope.
Notation "' pat <- p ;; k" := (bind p (fun x => let 'pat := x in k))
  (at level 61, pat pattern, p at next level, right associativity) : prog_scope.
Notation "p ;; k" := (bind p (fun _ => k))
  (at level 61, right associativity) : prog_scope.
Notation "'return' r" := (Ret r) (at level 60) : prog_scope.

(** One call of a run: the call and its answer. *)
Record entry := Entry {
  answer_type : Type;
  event : winE answer_type;
  answer : answer_type
}.

Arguments Entry {answer_type} event answer.

Definition trace := list entry.

(** The world outside the program: it answers a call knowing all the calls
    made before it. *)
Definition handler := forall X : Type, trace -> winE X -> X.

(** [run h p hist] plays [p] against [h] after the calls [hist] and gives
    all the calls made and the value returned. *)
Fixpoint run {R : Type} (h : handler) (p : prog R) (hist : trace) : trace * R :=
  match p with
  | Ret r => (hist, r)
  | Vis e k =>
      let x := h _ hist e in
      run h (k x) (hist ++ [Entry e x])%list
  end.

(** ** The program *)

Definition main : prog Z :=
  (printf (nl ++ "Windows RAW Printer API Test" ++ nl) [] ;;
   printf ("=============================" ++ nl ++ nl) [] ;;
   '(ok, hPrinter) <- OpenPrinter (Some "EPSON TM-T20III Receipt") None ;;
   if lnot ok then
     printf ("ERROR: Could not open printer" ++ nl) [] ;;
     err <- GetLastError ;;
     printf ("Error code: %d" ++ nl) [err] ;;
     return 1
   else
   printf ("OK: Printer opened" ++ nl) [] ;;
   let DocInfo := {| pDocName := Some "RAW Test";
                     pOutputFile := None;
                     pDatatype := Some "RAW" |} in
   dwJob <- StartDocPrinter hPrinter 1 DocInfo ;;
   if dwJob =? 0 then
     printf ("ERROR: Could not start document" ++ nl) [] ;;
     err <- GetLastError ;;
     printf ("Error code: %d" ++ nl) [err] ;;
     ClosePrinter hPrinter ;;
     return 1
   else
   printf ("OK: Document started (Job ID: %d)" ++ nl) [dwJob] ;;
   ok <- StartPagePrinter hPrinter ;;
   if lnot ok then
     printf ("ERROR: Could not start page" ++ nl) [] ;;
     EndDocPrinter hPrinter ;;
     ClosePrinter hPrinter ;;
     return 1
   else
   printf ("OK: Page started" ++ nl) [] ;;
   '(ok, dwBytesWritten) <- WritePrinter hPrinter data dwDataSize ;;
   if lnot ok then
     printf ("ERROR: Could not write to printer" ++ nl) [] ;;
     err <- GetLastError ;;
     printf ("Error code: %d" ++ nl) [err] ;;
     EndPagePrinter hPrinter ;;
     EndDocPrinter hPrinter ;;
     ClosePrinter hPrinter ;;
     return 1
   else
   printf ("OK: Wrote %d bytes" ++ nl) [dwBytesWritten] ;;
   ok <- EndPagePrinter hPrinter ;;
   when (lnot ok) (printf ("ERROR: Could not end page" ++ nl) []) ;;
   printf ("OK: Page ended" ++ nl) [] ;;
   ok <- EndDocPrinter hPrinter ;;
   when (lnot ok) (printf ("ERROR: Could not end document" ++ nl) []) ;;
   printf ("OK: Document ended" ++ nl) [] ;;
   ClosePrinter hPrinter ;;
   printf (nl ++ "SUCCESS: Print job submitted!" ++ nl) [] ;;
   printf (nl ++ "** CHECK YOUR PRINTER **" ++ nl ++ nl) [] ;;
   return 0)%prog.

(** ** Observing a run *)

(** The API function a call is to. *)
Inductive api : Set :=
| OPEN | STARTDOC | STARTPAGE | WRITE | ENDPAGE | ENDDOC | CLOSE | LASTERROR | PRINTF.

Definition api_eqb (a b : api) : bool :=
  match a, b with
  | OPEN, OPEN | STARTDOC, STARTDOC | STARTPAGE, STARTPAGE | WRITE, WRITE
  | ENDPAGE, ENDPAGE | ENDDOC, ENDDOC | CLOSE, CLOSE
  | LASTERROR, LASTERROR | PRINTF, PRINTF => true
  | _, _ => false
  end.

Definition api_of {X : Type} (e : winE X) : api :=
  match e with
  | OpenPrinter _ _ => OPEN
  | StartDocPrinter _ _ _ => STARTDOC
  | StartPagePrinter _ => STARTPAGE
  | WritePrinter _ _ _ => WRITE
  | EndPagePrinter _ => ENDPAGE
  | EndDocPrinter _ => ENDDOC
  | ClosePrinter _ => CLOSE
  | GetLastError => LASTERROR
  | printf _ _ => PRINTF
  end.

Definition kind (c : entry) : api := api_of (event c).

(** Whether a call succeeded, as the documentation of the API has it: a
    [BOOL] that is not zero, a job identifier that is not zero. *)
Definition succeeded_with {X : Type} (e : winE X) : X -> bool :=
  match e in winE T return T -> bool with
  | OpenPrinter _ _ => fun x => negb (lnot (fst x))
  | StartDocPrinter _ _ _ => fun x => negb (x =? 0)
  | StartPagePrinter _ => fun x => negb (lnot x)
  | WritePrinter _ _ _ => fun x => negb (lnot (fst x))
  | EndPagePrinter _ => fun x => negb (lnot x)
  | EndDocPrinter _ => fun x => negb (lnot x)
  | ClosePrinter _ => fun x => negb (lnot x)
  | GetLastError => fun _ => true
  | printf _ _ => fun _ => true
  end.

Definition call_ok (c : entry) : bool := succeeded_with (event c) (answer c).

(** How many times a function was called. *)
Definition count_calls (a : api) (tr : trace) : nat :=
  List.length (filter (fun c => api_eqb (kind c) a) tr).

(** The function was called and the call succeeded. *)
Definition succeeded (a : api) (tr : trace) : bool :=
  existsb (fun c => api_eqb (kind c) a && call_ok c) tr.

(** The function was called and the call failed. *)
Definition failed (a : api) (tr : trace) : bool :=
  existsb (fun c => api_eqb (kind c) a && negb (call_ok c)) tr.

(** What each [printf] of the run wrote, in order. *)
Definition text_of (c : entry) : option string :=
  match event c with
  | printf fmt args => Some (format fmt args)
  | _ => None
  end.

Fixpoint printed (tr : trace) : list string :=
  match tr with
  | [] => []
  | c :: tr' =>
      match text_of c with
      | Some s => s :: printed tr'
      | None => printed tr'
      end
  end.

Definition stdout (tr : trace) : string := String.concat "" (printed tr).

(** A whole run of the program. *)
Definition calls (h : handler) : trace := fst (run h main []).
Definition exit_code (h : handler) : Z := snd (run h main []).

(** ** Scripted spoolers *)

(** One answer for each API function. *)
Record responses := {
  r_open : BOOL;
  r_handle : HANDLE;
  r_job : DWORD;
  r_page : BOOL;
  r_write : BOOL;
  r_written : DWORD;
  r_endpage : BOOL;
  r_enddoc : BOOL;
  r_close : BOOL;
  r_error : DWORD
}.

(** The handler that answers from a script, whatever came before. *)
Definition handler_of (r : responses) : handler :=
  fun X _ e =>
    match e in winE T return T with
    | OpenPrinter _ _ => (r_open r, r_handle r)
    | StartDocPrinter _ _ _ => r_job r
    | StartPagePrinter _ => r_page r
    | WritePrinter _ _ _ => (r_write r, r_written r)
    | EndPagePrinter _ => r_endpage r
    | EndDocPrinter _ => r_enddoc r
    | ClosePrinter _ => r_close r
    | GetLastError => r_error r
    | printf _ _ => tt
    end.

Definition all_ok : responses :=
  {| r_open := 1; r_handle := 4096; r_job := 7; r_page := 1;
     r_write := 1; r_written := dwDataSize;
     r_endpage := 1; r_enddoc := 1; r_close := 1; r_error := 0 |}.

(** The script a trace was played from: the answer of each call in it
    (zero for a function that was not called). *)
Definition note (c : entry) (r : responses) : responses :=
  match c with
  | Entry e x =>
      match e in winE T return T -> responses with
      | OpenPrinter _ _ => fun x =>
          {| r_open := fst x; r_handle := snd x; r_job := r_job r; r_page := r_page r;
             r_write := r_write r; r_written := r_written r; r_endpage := r_endpage r;
             r_enddoc := r_enddoc r; r_close := r_close r; r_error := r_error r |}
      | StartDocPrinter _ _ _ => fun x =>
          {| r_open := r_open r; r_handle := r_handle r; r_job := x; r_page := r_page r;
             r_write := r_write r; r_written := r_written r; r_endpage := r_endpage r;
             r_enddoc := r_enddoc r; r_close := r_close r; r_error := r_error r |}
      | StartPagePrinter _ => fun x =>
          {| r_open := r_open r; r_handle := r_handle r; r_job := r_job r; r_page := x;
             r_write := r_write r; r_written := r_written r; r_endpage := r_endpage r;
             r_enddoc := r_enddoc r; r_close := r_close r; r_error := r_error r |}
      | WritePrinter _ _ _ => fun x =>
          {| r_open := r_open r; r_handle := r_handle r; r_job := r_job r; r_page := r_page r;
             r_write := fst x; r_written := snd x; r_endpage := r_endpage r;
             r_enddoc := r_enddoc r; r_close := r_close r; r_error := r_error r |}
      | EndPagePrinter _ => fun x =>
          {| r_open := r_open r; r_handle := r_handle r; r_job := r_job r; r_page := r_page r;
             r_write := r_write r; r_written := r_written r; r_endpage := x;
             r_enddoc := r_enddoc r; r_close := r_close r; r_error := r_error r |}
      | EndDocPrinter _ => fun x =>
          {| r_open := r_open r; r_handle := r_handle r; r_job := r_job r; r_page := r_page r;
             r_write := r_write r; r_written := r_written r; r_endpage := r_endpage r;
             r_enddoc := x; r_close := r_close r; r_error := r_error r |}
      | ClosePrinter _ => fun x =>
          {| r_open := r_open r; r_handle := r_handle r; r_job := r_job r; r_page := r_page r;
             r_write := r_write r; r_written := r_written r; r_endpage := r_endpage r;
             r_enddoc := r_enddoc r; r_close := x; r_error := r_error r |}
      | GetLastError => fun x =>
          {| r_open := r_open r; r_handle := r_handle r; r_job := r_job r; r_page := r_page r;
             r_write := r_write r; r_written := r_written r; r_endpage := r_endpage r;
             r_enddoc := r_enddoc r; r_close := r_close r; r_error := x |}
      | printf _ _ => fun _ => r
      end x
  end.

Definition silent : responses :=
  {| r_open := 0; r_handle := 0; r_job := 0; r_page := 0; r_write := 0;
     r_written := 0; r_endpage := 0; r_enddoc := 0; r_close := 0; r_error := 0 |}.

Definition script_of (tr : trace) : responses := fold_right note silent tr.

(** ** What a run reports *)

(** The four diagnostics after which [main] returns 1, under the names the
    error taxonomy gives them. *)
Inductive PrintError : Set :=
| DeviceUnavailable | JobStartFailed | PageStartFailed | WriteFailed.

Definition fatal_of (line : string) : option PrintError :=
  if String.eqb line ("ERROR: Could not open printer" ++ nl) then Some DeviceUnavailable
  else if String.eqb line ("ERROR: Could not start document" ++ nl) then Some JobStartFailed
  else if String.eqb line ("ERROR: Could not start page" ++ nl) then Some PageStartFailed
  else if String.eqb line ("ERROR: Could not write to printer" ++ nl) then Some WriteFailed
  else None.

Fixpoint first_fatal (lines : list string) : option PrintError :=
  match lines with
  | [] => None
  | l :: lines' =>
      match fatal_of l with
      | Some e => Some e
      | None => first_fatal lines'
      end
  end.

(** The fatal error a run reported, if it reported one. *)
Definition reported_fatal (tr : trace) : option PrintError := first_fatal (printed tr).

(** The run wrote this line. *)
Definition mentions (line : string) (tr : trace) : bool :=
  existsb (String.eqb line) (printed tr).

(** The final banner of line 95. *)
Definition success_banner : string := nl ++ "SUCCESS: Print job submitted!" ++ nl.

(** The diagnostics of a failed end-page and end-document. *)
Definition end_page_error : string := "ERROR: Could not end page" ++ nl.
Definition end_doc_error : string := "ERROR: Could not end document" ++ nl.

(** ** What a run wrote to the printer *)

(** The size asked for, whether the call succeeded and the count it stored,
    of a call of [WritePrinter]. *)
Definition write_result (c : entry) : option (DWORD * bool * DWORD) :=
  match c with
  | Entry e x =>
      match e in winE T return T -> option (DWORD * bool * DWORD) with
      | WritePrinter _ _ cbBuf => fun x => Some (cbBuf, negb (lnot (fst x)), snd x)
      | _ => fun _ => None
      end x
  end.

(** A [WritePrinter] call succeeded and stored fewer bytes than asked. *)
Definition short_write (tr : trace) : bool :=
  existsb (fun c => match write_result c with
                    | Some (cb, ok, n) => ok && (n <? cb)
                    | None => false
                    end) tr.

(** A [WritePrinter] call succeeded and stored exactly the size asked. *)
Definition full_write (tr : trace) : bool :=
  existsb (fun c => match write_result c with
                    | Some (cb, ok, n) => ok && (n =? cb)
                    | None => false
                    end) tr.

(** The count stored through [&dwBytesWritten]. *)
Fixpoint bytes_written (tr : trace) : option DWORD :=
  match tr with
  | [] => None
  | c :: tr' =>
      match write_result c with
      | Some (_, _, n) => Some n
      | None => bytes_written tr'
      end
  end.

(** The job descriptor a call of [StartDocPrinter] was given. *)
Definition doc_info_of (c : entry) : option DOC_INFO_1 :=
  match event c with
  | StartDocPrinter _ _ d => Some d
  | _ => None
  end.

(** ** Teardown *)

Definition is_teardown (a : api) : bool :=
  match a with
  | ENDPAGE | ENDDOC | CLOSE => true
  | _ => false
  end.

Definition is_close (a : api) : bool := api_eqb a CLOSE.

(** End-page is the first teardown step, end-document the second, close
    the third. *)
Definition teardown_rank (a : api) : option nat :=
  match a with
  | ENDPAGE => Some 0%nat
  | ENDDOC => Some 1%nat
  | CLOSE => Some 2%nat
  | _ => None
  end.

(** The ranks of the teardown calls of a run, in the order of the calls. *)
Fixpoint teardown_ranks (tr : trace) : list nat :=
  match tr with
  | [] => []
  | c :: tr' =>
      match teardown_rank (kind c) with
      | Some n => n :: teardown_ranks tr'
      | None => teardown_ranks tr'
      end
  end.

(** The calls made after the first call of a function. *)
Fixpoint after_call (a : api) (tr : trace) : trace :=
  match tr with
  | [] => []
  | c :: tr' => if api_eqb (kind c) a then tr' else after_call a tr'
  end.

(** All that a run shows outside: what it printed and its exit code. *)
Definition shown (h : handler) : string * Z := (stdout (calls h), exit_code h).

(** The spooler [h], except that the functions picked by [swap] answer
    from the script [t]. *)
Definition answering (t : responses) (swap : api -> bool) (h : handler) : handler :=
  fun X hist e => if swap (api_of e) then handler_of t X hist e else h X hist e.

(** ** Sample spoolers *)

(** The spooler takes 10 of the 28 bytes and says the write succeeded. *)
Definition accepts_10 : responses :=
  {| r_open := 1; r_handle := 4096; r_job := 7; r_page := 1;
     r_write := 1; r_written := 10;
     r_endpage := 1; r_enddoc := 1; r_close := 1; r_error := 0 |}.

(** [all_ok], but [ClosePrinter] fails. *)
Definition close_fails : responses :=
  {| r_open := 1; r_handle := 4096; r_job := 7; r_page := 1;
     r_write := 1; r_written := dwDataSize;
     r_endpage := 1; r_enddoc := 1; r_close := 0; r_error := 0 |}.

(** The spooler refuses the job. *)
Definition job_refused : responses :=
  {| r_open := 1; r_handle := 4096; r_job := 0; r_page := 1;
     r_write := 1; r_written := dwDataSize;
     r_endpage := 1; r_enddoc := 1; r_close := 1; r_error := 5 |}.

(** The write fails; so do end-page and end-document after it. *)
Definition write_fails : responses :=
  {| r_open := 1; r_handle := 4096; r_job := 7; r_page := 1;
     r_write := 0; r_written := 0;
     r_endpage := 0; r_enddoc := 0; r_close := 1; r_error := 1722 |}.

(** [write_fails], but end-page and end-document succeed. *)
Definition write_fails_only : responses :=
  {| r_open := 1; r_handle := 4096; r_job := 7; r_page := 1;
     r_write := 0; r_written := 0;
     r_endpage := 1; r_enddoc := 1; r_close := 1; r_error := 1722 |}.

(** Everything succeeds but end-page and end-document. *)
Definition ends_fail : responses :=
  {| r_open := 1; r_handle := 4096; r_job := 7; r_page := 1;
     r_write := 1; r_written := dwDataSize;
     r_endpage := 0; r_enddoc := 0; r_close := 1; r_error := 0 |}.

(** Everything succeeds up to the write; every teardown call fails. *)
Definition ends_and_close_fail : responses :=
  {| r_open := 1; r_handle := 4096; r_job := 7; r_page := 1;
     r_write := 1; r_written := dwDataSize;
     r_endpage := 0; r_enddoc := 0; r_close := 0; r_error := 0 |}.

(** ** The arguments and answers of the calls *)

(** The handle a call is made on. *)
Definition handle_of (c : entry) : option HANDLE :=
  match event c with
  | StartDocPrinter hp _ _ => Some hp
  | StartPagePrinter hp => Some hp
  | WritePrinter hp _ _ => Some hp
  | EndPagePrinter hp => Some hp
  | EndDocPrinter hp => Some hp
  | ClosePrinter hp => Some hp
  | _ => None
  end.

(** The buffer and the size a call of [WritePrinter] is given. *)
Definition write_args (c : entry) : option (list byte * DWORD) :=
  match event c with
  | WritePrinter _ pBuf cbBuf => Some (pBuf, cbBuf)
  | _ => None
  end.

(** The handle a call of [OpenPrinter] stored through [&hPrinter]. *)
Definition stored_handle (c : entry) : option HANDLE :=
  match c with
  | Entry e x =>
      match e in winE T return T -> option HANDLE with
      | OpenPrinter _ _ => fun x => Some (snd x)
      | _ => fun _ => None
      end x
  end.

(** The job identifier a call of [StartDocPrinter] returned. *)
Definition returned_job (c : entry) : option DWORD :=
  match c with
  | Entry e x =>
      match e in winE T return T -> option DWORD with
      | StartDocPrinter _ _ _ => fun x => Some x
      | _ => fun _ => None
      end x
  end.

(** The code a call of [GetLastError] returned. *)
Definition returned_error (c : entry) : option DWORD :=
  match c with
  | Entry e x =>
      match e in winE T return T -> option DWORD with
      | GetLastError => fun x => Some x
      | _ => fun _ => None
      end x
  end.

(** The first call of a run that [f] reads something from. *)
Fixpoint first_of {A : Type} (f : entry -> option A) (tr : trace) : option A :=
  match tr with
  | [] => None
  | c :: tr' =>
      match f c with
      | Some a => Some a
      | None => first_of f tr'
      end
  end.

(** [hPrinter], [dwJob] and the error code of a run, once they are set. *)
Definition opened_handle (tr : trace) : option HANDLE := first_of stored_handle tr.
Definition job_id (tr : trace) : option DWORD := first_of returned_job tr.
Definition last_error (tr : trace) : option DWORD := first_of returned_error tr.

(** The calls made before the first call of a function (all of them when
    it is never called). *)
Fixpoint before_call (a : api) (tr : trace) : trace :=
  match tr with
  | [] => []
  | c :: tr' => if api_eqb (kind c) a then [] else c :: before_call a tr'
  end.

(** ** The life of a job *)

(** The functions of the spooler, as opposed to [GetLastError] and
    [printf]. *)
Definition is_spooler (a : api) : bool :=
  match a with
  | LASTERROR | PRINTF => false
  | _ => true
  end.

(** The spooler functions a run called, in the order of the calls. *)
Definition lifecycle (tr : trace) : list api := filter is_spooler (map kind tr).

(** The lines that give the verdict of a run: a fatal diagnostic or the
    success banner. *)
Definition is_verdict (line : string) : bool :=
  match fatal_of line with
  | Some _ => true
  | None => String.eqb line success_banner
  end.

Definition verdicts (tr : trace) : list string := filter is_verdict (printed tr).

(** Some line printed starts with this text. *)
Definition mentions_prefix (p : string) (tr : trace) : bool :=
  existsb (String.prefix p) (printed tr).

(** The spooler refuses the page. *)
Definition page_refused : responses :=
  {| r_open := 1; r_handle := 4096; r_job := 7; r_page := 0;
     r_write := 1; r_written := dwDataSize;
     r_endpage := 1; r_enddoc := 0; r_close := 0; r_error := 5 |}.

(** ** Every run is the run of a script *)

Lemma run_vis {R X : Type} (h : handler) (e : winE X) (k : X -> prog R) (hist : trace) :
  run h (Vis e k) hist = run h (k (h X hist e)) (hist ++ [Entry e (h X hist e)])%list.
Proof. reflexivity. Qed.

Ltac step h :=
  cbn [bind trigger when];
  lazymatch goal with
  | |- context [run h (Vis ?e ?k) ?hist] =>
      rewrite (run_vis h e k hist);
      let x := fresh "x" in
      generalize (h _ hist e); intro x;
      lazymatch type of x with
      | unit => destruct x
      | prod _ _ => destruct x
      | _ => idtac
      end;
      cbn [app fst snd]
  | |- context [run h (if ?b then _ else _) _] => destruct b eqn:?
  | |- context [run h (bind (when ?b _) _) _] => destruct b eqn:?
  end.

Ltac replay H :=
  lazymatch goal with
  | |- _ (run _ (Ret _) ?tr) =>
      generalize (H (script_of tr));
      repeat (progress (cbv - [lnot Z.eqb String.append nl data dwDataSize];
        repeat match goal with E : _ = _ |- _ => rewrite E end));
      exact (fun x => x)
  end.

Lemma main_cases (P : trace * Z -> Prop) :
  (forall r : responses, P (run (handler_of r) main [])) ->
  forall h : handler, P (run h main []).
Proof.
  intros H h. unfold main.
  repeat (step h).
  all: replay H.
Qed.

(** From a goal on the run of any handler to the goal on the run of any
    script. *)
Ltac by_script h r :=
  unfold calls, exit_code;
  pattern (run h main []); revert h; apply main_cases; intro r;
  destruct r.

(** The same for two runs side by side, that of a handler and that of the
    handler with the answers of teardown calls, or of [ClosePrinter] alone,
    taken from a script. *)
Ltac name_answers h :=
  repeat match goal with
    | |- context [h ?X ?hist ?e] =>
        let x := fresh "x" in
        generalize (h X hist e); intro x;
        lazymatch type of x with
        | unit => destruct x
        | prod _ _ => destruct x
        | _ => idtac
        end
    end.

Ltac step_both h :=
  cbn [bind trigger when];
  first
  [ match goal with
    | |- context [run _ (if ?b then _ else _) _] => destruct b eqn:?
    | |- context [run _ (bind (when ?b _) _) _] => destruct b eqn:?
    end
  | progress (
      try match goal with
          | |- context [run h (Vis ?e ?k) ?hist] => rewrite (run_vis h e k hist)
          end;
      try match goal with
          | |- context [run (answering ?t ?s h) (Vis ?e ?k) ?hist] =>
              rewrite (run_vis (answering t s h) e k hist)
          end);
    cbn [answering api_of is_teardown is_close api_eqb handler_of
         r_endpage r_enddoc r_close];
    name_answers h;
    cbn [app fst snd] ].

Ltac replay_both H :=
  lazymatch goal with
  | |- _ (run _ (Ret _) ?tr) _ =>
      generalize (H (script_of tr));
      repeat (progress (cbv - [lnot Z.eqb String.append nl data dwDataSize];
        repeat match goal with E : _ = _ |- _ => rewrite E end));
      exact (fun x => x)
  end.

Lemma main_cases_answering (t : responses) (swap : api -> bool)
    (Q : trace * Z -> trace * Z -> Prop) :
  swap = is_teardown \/ swap = is_close ->
  (forall r : responses,
     Q (run (handler_of r) main []) (run (answering t swap (handler_of r)) main [])) ->
  forall h : handler, Q (run h main []) (run (answering t swap h) main []).
Proof.
  intros Hswap H h. destruct t.
  destruct Hswap; subst swap; unfold main.
  - repeat (step_both h). all: replay_both H.
  - repeat (step_both h). all: replay_both H.
Qed.

Ltac by_script_answering h t r :=
  unfold shown, calls, exit_code;
  match goal with
  | |- context [run (answering t ?s h) main []] =>
      pattern (run h main []), (run (answering t s h) main []);
      revert h; apply (main_cases_answering t s); [ tauto | ];
      intro r; destruct r; destruct t
  end.

(** Follow the run of a script down each path of [main]. *)
Ltac reduce_run := cbv - [lnot Z.eqb Z.ltb dec to_int].

Ltac use_eqns :=
  repeat match goal with
    | E : lnot _ = _ |- _ => rewrite E
    | E : Z.eqb _ 0 = _ |- _ => rewrite E
    end.

Ltac simp_run := repeat (progress (reduce_run; use_eqns)).

Ltac split_cond :=
  match goal with
  | |- context [lnot ?v] => destruct (lnot v) eqn:?
  | |- context [Z.eqb ?v 0] => destruct (Z.eqb v 0) eqn:?
  end.

Ltac paths := simp_run; repeat (split_cond; simp_run).

(** Find a line among the lines printed. *)
Ltac find_line := repeat (first [ left; reflexivity | right ]).

(** ** The model at work *)

Example format_count :
  format ("OK: Wrote %d bytes" ++ nl) [28] = "OK: Wrote 28 bytes" ++ nl.
Proof. reflexivity. Qed.

Example format_zero : format "Job %d" [0] = "Job 0".
Proof. reflexivity. Qed.

Example format_signed :
  format ("Error code: %d" ++ nl) [4294967295] = "Error code: -1" ++ nl.
Proof. reflexivity. Qed.

Example calls_all_ok :
  map kind (calls (handler_of all_ok))
  = [PRINTF; PRINTF; OPEN; PRINTF; STARTDOC; PRINTF; STARTPAGE; PRINTF; WRITE;
     PRINTF; ENDPAGE; PRINTF; ENDDOC; PRINTF; CLOSE; PRINTF; PRINTF].
Proof. reflexivity. Qed.

Example calls_open_fails :
  map kind (calls (handler_of silent))
  = [PRINTF; PRINTF; OPEN; PRINTF; LASTERROR; PRINTF]
  /\ exit_code (handler_of silent) = 1.
Proof. split; reflexivity. Qed.

Example calls_write_fails :
  map kind (calls (handler_of write_fails))
  = [PRINTF; PRINTF; OPEN; PRINTF; STARTDOC; PRINTF; STARTPAGE; PRINTF; WRITE;
     PRINTF; LASTERROR; PRINTF; ENDPAGE; ENDDOC; CLOSE]
  /\ teardown_ranks (calls (handler_of write_fails)) = [0; 1; 2]%nat
  /\ exit_code (handler_of write_fails) = 1.
Proof. repeat split; reflexivity. Qed.

Example calls_ends_fail :
  printed (after_call WRITE (calls (handler_of ends_fail)))
  = [ "OK: Wrote 28 bytes" ++ nl;
      "ERROR: Could not end page" ++ nl; "OK: Page ended" ++ nl;
      "ERROR: Could not end document" ++ nl; "OK: Document ended" ++ nl;
      nl ++ "SUCCESS: Print job submitted!" ++ nl;
      nl ++ "** CHECK YOUR PRINTER **" ++ nl ++ nl ].
Proof. reflexivity. Qed.

(** ** Close *)

(** C2. In every run [ClosePrinter] is called exactly once when
    [OpenPrinter] succeeded and never when it failed, whatever start-job,
    start-page and write did; [OpenPrinter] itself is called once. *)
Theorem C2_close_once_iff_opened (h : handler) :
  count_calls OPEN (calls h) = 1%nat /\
  count_calls CLOSE (calls h) = (if succeeded OPEN (calls h) then 1 else 0)%nat /\
  failed OPEN (calls h) = negb (succeeded OPEN (calls h)).
Proof.
  by_script h r. paths; repeat split.
Qed.

(** ** The job descriptor *)

(** C3. Every call of [StartDocPrinter] in a run is given a descriptor
    whose data type is the string RAW and whose output file is [NULL]. *)
Theorem C3_job_is_raw (h : handler) (c : entry) (d : DOC_INFO_1) :
  In c (calls h) -> doc_info_of c = Some d ->
  pDatatype d = Some "RAW" /\ pOutputFile d = None.
Proof.
  revert c d. by_script h r. paths; intros c d Hin;
    repeat (destruct Hin as [<- | Hin]; [ try discriminate | ]);
    try contradiction;
    intros [= <-]; split; reflexivity.
Qed.

Lemma C3_job_is_raw_witness :
  pDatatype {| pDocName := Some "RAW Test"; pOutputFile := None;
               pDatatype := Some "RAW" |} = Some "RAW" /\
  pOutputFile {| pDocName := Some "RAW Test"; pOutputFile := None;
                 pDatatype := Some "RAW" |} = None.
Proof.
  apply (C3_job_is_raw (handler_of all_ok)
           (Entry (StartDocPrinter 4096 1
                     {| pDocName := Some "RAW Test"; pOutputFile := None;
                        pDatatype := Some "RAW" |}) 7)).
  - vm_compute. tauto.
  - reflexivity.
Defined.

(** ** A refused job *)

(** C5. When [StartDocPrinter] fails, the run calls none of
    [StartPagePrinter], [WritePrinter], [EndPagePrinter] and
    [EndDocPrinter], calls [ClosePrinter] exactly once, reports the
    job-start error and exits with code 1. *)
Theorem C5_job_start_failure (h : handler) :
  failed STARTDOC (calls h) = true ->
  count_calls STARTPAGE (calls h) = 0%nat /\
  count_calls WRITE (calls h) = 0%nat /\
  count_calls ENDPAGE (calls h) = 0%nat /\
  count_calls ENDDOC (calls h) = 0%nat /\
  count_calls CLOSE (calls h) = 1%nat /\
  reported_fatal (calls h) = Some JobStartFailed /\
  exit_code h = 1.
Proof.
  by_script h r. paths; intros Hf; try discriminate Hf; repeat split.
Qed.

Lemma C5_job_start_failure_witness :
  count_calls STARTPAGE (calls (handler_of job_refused)) = 0%nat /\
  count_calls WRITE (calls (handler_of job_refused)) = 0%nat /\
  count_calls ENDPAGE (calls (handler_of job_refused)) = 0%nat /\
  count_calls ENDDOC (calls (handler_of job_refused)) = 0%nat /\
  count_calls CLOSE (calls (handler_of job_refused)) = 1%nat /\
  reported_fatal (calls (handler_of job_refused)) = Some JobStartFailed /\
  exit_code (handler_of job_refused) = 1.
Proof.
  apply (C5_job_start_failure (handler_of job_refused)). reflexivity.
Defined.

(** ** The order of teardown *)

(** C8. In every run the teardown calls come in the order end-page,
    end-document, close: read in the order of the calls, their ranks
    (0 for [EndPagePrinter], 1 for [EndDocPrinter], 2 for [ClosePrinter])
    strictly increase, so that no two of them are ever called the other
    way round and none is called twice. *)
Theorem C8_teardown_order (h : handler) :
  StronglySorted Nat.lt (teardown_ranks (calls h)).
Proof.
  by_script h r. paths; repeat constructor.
Qed.

(** ** The count of bytes written *)

(** C1, as the code has it. When the [WritePrinter] call succeeds (the
    program calls it only after open, start-job and start-page succeeded),
    the run is a success whatever count the spooler stored: it exits with
    code 0, prints the success banner and no fatal diagnostic, and prints
    the stored count in its line [OK: Wrote n bytes] without comparing it
    with the size of the payload. *)
Theorem C1_written_count_is_not_checked (h : handler) :
  succeeded WRITE (calls h) = true ->
  exit_code h = 0 /\
  mentions success_banner (calls h) = true /\
  reported_fatal (calls h) = None /\
  exists n : DWORD,
    bytes_written (calls h) = Some n /\
    In (format ("OK: Wrote %d bytes" ++ nl) [n]) (printed (calls h)).
Proof.
  by_script h r. paths; intros Hw; try discriminate Hw;
    (split; [ reflexivity | split; [ reflexivity | split; [ reflexivity | ] ] ]);
    eexists; (split; [ reflexivity | find_line ]).
Qed.

Lemma C1_written_count_is_not_checked_witness :
  exit_code (handler_of accepts_10) = 0 /\
  mentions success_banner (calls (handler_of accepts_10)) = true /\
  reported_fatal (calls (handler_of accepts_10)) = None /\
  exists n : DWORD,
    bytes_written (calls (handler_of accepts_10)) = Some n /\
    In (format ("OK: Wrote %d bytes" ++ nl) [n]) (printed (calls (handler_of accepts_10))).
Proof.
  apply (C1_written_count_is_not_checked (handler_of accepts_10)). reflexivity.
Defined.

(** C1 as stated fails: the spooler takes 10 of the 28 bytes and says the
    write succeeded; the run exits with code 0, not 1. *)
Lemma C1_short_write_counterexample :
  ~ (succeeded OPEN (calls (handler_of accepts_10)) = true ->
     succeeded STARTDOC (calls (handler_of accepts_10)) = true ->
     succeeded STARTPAGE (calls (handler_of accepts_10)) = true ->
     succeeded WRITE (calls (handler_of accepts_10)) = true ->
     (exit_code (handler_of accepts_10) = 0 ->
      bytes_written (calls (handler_of accepts_10)) = Some dwDataSize) /\
     (short_write (calls (handler_of accepts_10)) = true ->
      exit_code (handler_of accepts_10) = 1)).
Proof.
  intros H. destruct H as [_ H]; try reflexivity.
  specialize (H eq_refl). vm_compute in H. discriminate H.
Qed.

(** C4, as the code has it. The payload is 28 bytes long, and a run whose
    [WritePrinter] call succeeds and stores the whole size asked reports 28
    bytes written and is a success. *)
Theorem C4_payload_is_28_bytes (h : handler) :
  full_write (calls h) = true ->
  sizeof data = 28 /\
  bytes_written (calls h) = Some 28 /\
  In ("OK: Wrote 28 bytes" ++ nl) (printed (calls h)) /\
  mentions success_banner (calls h) = true /\
  exit_code h = 0.
Proof.
  by_script h r. paths; intros Hw; try discriminate Hw;
    (destruct (Z.eqb_spec r_written0 28) as [-> | _]; [ | discriminate Hw ]);
    (split; [ reflexivity | split; [ reflexivity | split; [ find_line | split; reflexivity ] ] ]).
Qed.

Lemma C4_payload_is_28_bytes_witness :
  sizeof data = 28 /\
  bytes_written (calls (handler_of all_ok)) = Some 28 /\
  In ("OK: Wrote 28 bytes" ++ nl) (printed (calls (handler_of all_ok))) /\
  mentions success_banner (calls (handler_of all_ok)) = true /\
  exit_code (handler_of all_ok) = 0.
Proof.
  apply (C4_payload_is_28_bytes (handler_of all_ok)). reflexivity.
Defined.

(** C4 as stated fails: the array has 28 elements, not 29, and the run
    that writes it whole reports 28. *)
Lemma C4_length_counterexample :
  ~ (sizeof data = 29 /\
     (full_write (calls (handler_of all_ok)) = true ->
      bytes_written (calls (handler_of all_ok)) = Some 29)).
Proof.
  intros [H _]. vm_compute in H. discriminate H.
Qed.

(** ** Failures of end-page and end-document after a good write *)

(** C9. When the [WritePrinter] call succeeds and [EndPagePrinter] or
    [EndDocPrinter] fails, the run still exits with code 0 and prints the
    success banner, no fatal diagnostic takes the place of the result, the
    line with the count of bytes written is printed with the count the
    spooler stored, and each failed step has its diagnostic printed. *)
Theorem C9_success_survives_failed_ends (h : handler) :
  succeeded WRITE (calls h) = true ->
  failed ENDPAGE (calls h) = true \/ failed ENDDOC (calls h) = true ->
  exit_code h = 0 /\
  mentions success_banner (calls h) = true /\
  reported_fatal (calls h) = None /\
  (exists n : DWORD,
     bytes_written (calls h) = Some n /\
     In (format ("OK: Wrote %d bytes" ++ nl) [n]) (printed (calls h))) /\
  (failed ENDPAGE (calls h) = true -> mentions end_page_error (calls h) = true) /\
  (failed ENDDOC (calls h) = true -> mentions end_doc_error (calls h) = true).
Proof.
  by_script h r. paths; intros Hw; try discriminate Hw; intros [Hf | Hf];
    try discriminate Hf;
    (split; [ reflexivity | split; [ reflexivity | split; [ reflexivity | split ] ] ]);
    try (eexists; (split; [ reflexivity | find_line ]));
    split; intros E; try reflexivity; discriminate E.
Qed.

Lemma C9_success_survives_failed_ends_witness :
  exit_code (handler_of ends_fail) = 0 /\
  mentions success_banner (calls (handler_of ends_fail)) = true /\
  reported_fatal (calls (handler_of ends_fail)) = None /\
  (exists n : DWORD,
     bytes_written (calls (handler_of ends_fail)) = Some n /\
     In (format ("OK: Wrote %d bytes" ++ nl) [n]) (printed (calls (handler_of ends_fail)))) /\
  (failed ENDPAGE (calls (handler_of ends_fail)) = true ->
   mentions end_page_error (calls (handler_of ends_fail)) = true) /\
  (failed ENDDOC (calls (handler_of ends_fail)) = true ->
   mentions end_doc_error (calls (handler_of ends_fail)) = true).
Proof.
  apply (C9_success_survives_failed_ends (handler_of ends_fail)).
  - reflexivity.
  - left. reflexivity.
Defined.

(** C10. On the path where the write succeeded, the first line printed
    after the call of [EndPagePrinter] is [OK: Page ended] when the call
    succeeded, and when it failed the diagnostic comes first and
    [OK: Page ended] right after it all the same; likewise for
    [EndDocPrinter] and [OK: Document ended]. *)
Theorem C10_ok_lines_are_unconditional (h : handler) :
  succeeded WRITE (calls h) = true ->
  firstn (if failed ENDPAGE (calls h) then 2 else 1)
         (printed (after_call ENDPAGE (calls h)))
    = (if failed ENDPAGE (calls h)
       then [end_page_error; "OK: Page ended" ++ nl]
       else ["OK: Page ended" ++ nl]) /\
  firstn (if failed ENDDOC (calls h) then 2 else 1)
         (printed (after_call ENDDOC (calls h)))
    = (if failed ENDDOC (calls h)
       then [end_doc_error; "OK: Document ended" ++ nl]
       else ["OK: Document ended" ++ nl]).
Proof.
  by_script h r. paths; intros Hw; try discriminate Hw; split; reflexivity.
Qed.

Lemma C10_ok_lines_are_unconditional_witness :
  firstn (if failed ENDPAGE (calls (handler_of ends_fail)) then 2 else 1)
         (printed (after_call ENDPAGE (calls (handler_of ends_fail))))
    = (if failed ENDPAGE (calls (handler_of ends_fail))
       then [end_page_error; "OK: Page ended" ++ nl]
       else ["OK: Page ended" ++ nl]) /\
  firstn (if failed ENDDOC (calls (handler_of ends_fail)) then 2 else 1)
         (printed (after_call ENDDOC (calls (handler_of ends_fail))))
    = (if failed ENDDOC (calls (handler_of ends_fail))
       then [end_doc_error; "OK: Document ended" ++ nl]
       else ["OK: Document ended" ++ nl]).
Proof.
  apply (C10_ok_lines_are_unconditional (handler_of ends_fail)). reflexivity.
Defined.

(** ** A failed or short write *)

(** C6, as the code has it. When the write fails, [EndPagePrinter] and
    [EndDocPrinter] are each called exactly once in the run, the write
    failure is the fatal error reported, with exit code 1, and the run
    shows the same whatever the teardown calls answer.  When the write
    succeeds with fewer bytes than asked, [EndPagePrinter] and
    [EndDocPrinter] are each called exactly once as well, and no fatal
    error is reported, with exit code 0, whatever the teardown calls
    answer. *)
Theorem C6_ends_attempted_after_bad_write (h : handler) (t : responses) :
  (failed WRITE (calls h) = true ->
   (count_calls ENDPAGE (calls h) = 1%nat /\ count_calls ENDDOC (calls h) = 1%nat) /\
   (reported_fatal (calls h) = Some WriteFailed /\ exit_code h = 1) /\
   shown (answering t is_teardown h) = shown h) /\
  (short_write (calls h) = true ->
   (count_calls ENDPAGE (calls h) = 1%nat /\ count_calls ENDDOC (calls h) = 1%nat) /\
   (reported_fatal (calls h) = None /\ exit_code h = 0) /\
   (reported_fatal (calls (answering t is_teardown h)) = None /\
    exit_code (answering t is_teardown h) = 0)).
Proof.
  by_script_answering h t r.
  paths; (split; intros Hw; try discriminate Hw; repeat split).
Qed.

Lemma C6_ends_attempted_after_bad_write_witness :
  ((count_calls ENDPAGE (calls (handler_of write_fails)) = 1%nat /\
    count_calls ENDDOC (calls (handler_of write_fails)) = 1%nat) /\
   (reported_fatal (calls (handler_of write_fails)) = Some WriteFailed /\
    exit_code (handler_of write_fails) = 1) /\
   shown (answering all_ok is_teardown (handler_of write_fails))
     = shown (handler_of write_fails)) /\
  ((count_calls ENDPAGE (calls (handler_of accepts_10)) = 1%nat /\
    count_calls ENDDOC (calls (handler_of accepts_10)) = 1%nat) /\
   (reported_fatal (calls (handler_of accepts_10)) = None /\
    exit_code (handler_of accepts_10) = 0) /\
   (reported_fatal (calls (answering ends_and_close_fail is_teardown
                             (handler_of accepts_10))) = None /\
    exit_code (answering ends_and_close_fail is_teardown (handler_of accepts_10)) = 0)).
Proof.
  split.
  - apply (proj1 (C6_ends_attempted_after_bad_write (handler_of write_fails) all_ok)).
    reflexivity.
  - apply (proj2 (C6_ends_attempted_after_bad_write (handler_of accepts_10)
                    ends_and_close_fail)).
    reflexivity.
Defined.

(** C6 as stated fails: after a write that succeeds with 10 of the 28
    bytes the teardown calls are made, and there is no fatal error that is
    reported whatever they answer; with all of them succeeding none is
    reported at all. *)
Lemma C6_short_write_counterexample :
  ~ (short_write (calls (handler_of accepts_10)) = true ->
     (count_calls ENDPAGE (calls (handler_of accepts_10)) = 1%nat /\
      count_calls ENDDOC (calls (handler_of accepts_10)) = 1%nat) /\
     exists e : PrintError, forall t : responses,
       reported_fatal (calls (answering t is_teardown (handler_of accepts_10))) = Some e).
Proof.
  intros H. destruct (H eq_refl) as (_ & e & He).
  specialize (He all_ok). vm_compute in He. discriminate He.
Qed.

(** ** What is said of a failed teardown step *)

(** C7, as the code has it. On the path where the write succeeded, the
    diagnostic of end-page is printed exactly when [EndPagePrinter] failed
    and that of end-document exactly when [EndDocPrinter] failed.  What
    [ClosePrinter] returns is never looked at: with any other answer of
    [ClosePrinter], failure included, the run prints the same text and
    exits with the same code. *)
Theorem C7_ends_reported_close_ignored (h : handler) (t : responses) :
  (succeeded WRITE (calls h) = true ->
   mentions end_page_error (calls h) = failed ENDPAGE (calls h) /\
   mentions end_doc_error (calls h) = failed ENDDOC (calls h)) /\
  shown (answering t is_close h) = shown h /\
  (succeeded OPEN (calls h) = true ->
   failed CLOSE (calls (answering t is_close h)) = lnot (r_close t)).
Proof.
  by_script_answering h t r.
  paths; (split; [ intros Hw; try discriminate Hw; split; reflexivity | ]);
    (split; [ reflexivity | intros Ho; try discriminate Ho; reflexivity ]).
Qed.

Lemma C7_ends_reported_close_ignored_witness :
  (mentions end_page_error (calls (handler_of ends_fail))
     = failed ENDPAGE (calls (handler_of ends_fail)) /\
   mentions end_doc_error (calls (handler_of ends_fail))
     = failed ENDDOC (calls (handler_of ends_fail))) /\
  shown (answering close_fails is_close (handler_of ends_fail))
    = shown (handler_of ends_fail) /\
  failed CLOSE (calls (answering close_fails is_close (handler_of ends_fail)))
    = lnot (r_close close_fails).
Proof.
  destruct (C7_ends_reported_close_ignored (handler_of ends_fail) close_fails)
    as (Hends & Hclose & Hfails).
  split; [ apply Hends; reflexivity | split; [ exact Hclose | apply Hfails; reflexivity ] ].
Defined.

(** C7 as stated fails: [ClosePrinter] fails in the run of [close_fails],
    and the run shows exactly what the run of [all_ok] shows, where it
    succeeds.  Nor is a failed [EndPagePrinter] shown after a failed write:
    the runs of [write_fails] and [write_fails_only] show the same. *)
Lemma C7_close_failure_counterexample :
  ~ (failed CLOSE (calls (handler_of close_fails)) = true ->
     shown (handler_of close_fails) <> shown (handler_of all_ok)) /\
  ~ (failed ENDPAGE (calls (handler_of write_fails)) = true ->
     shown (handler_of write_fails) <> shown (handler_of write_fails_only)).
Proof.
  split; intros H; apply H; reflexivity.
Qed.

(** ** The life of a job, path by path *)

(** X1. The spooler functions a run calls, in order, are fixed by the
    first step that fails: [OpenPrinter] alone when it fails; open,
    start-document, close when the job is refused; open, start-document,
    start-page, end-document, close when the page is refused; and the whole
    sequence open, start-document, start-page, write, end-page,
    end-document, close otherwise, whether or not the write succeeds. *)
Theorem lifecycle_by_first_failure (h : handler) :
  lifecycle (calls h) =
    if failed OPEN (calls h) then [OPEN]
    else if failed STARTDOC (calls h) then [OPEN; STARTDOC; CLOSE]
    else if failed STARTPAGE (calls h) then [OPEN; STARTDOC; STARTPAGE; ENDDOC; CLOSE]
    else [OPEN; STARTDOC; STARTPAGE; WRITE; ENDPAGE; ENDDOC; CLOSE].
Proof.
  by_script h r. paths; reflexivity.
Qed.

(** X2. Every run prints exactly one verdict line, a fatal diagnostic or
    the success banner.  The fatal error is that of the first of open,
    start-document, start-page and write that failed, the exit code is 1
    with a fatal error and 0 without, and the banner is printed exactly
    when there is none. *)
Theorem one_verdict_per_run (h : handler) :
  List.length (verdicts (calls h)) = 1%nat /\
  reported_fatal (calls h) =
    (if failed OPEN (calls h) then Some DeviceUnavailable
     else if failed STARTDOC (calls h) then Some JobStartFailed
     else if failed STARTPAGE (calls h) then Some PageStartFailed
     else if failed WRITE (calls h) then Some WriteFailed
     else None) /\
  exit_code h = (match reported_fatal (calls h) with Some _ => 1 | None => 0 end) /\
  mentions success_banner (calls h)
    = (match reported_fatal (calls h) with Some _ => false | None => true end).
Proof.
  by_script h r. paths; repeat split.
Qed.

(** ** The error code *)

(** X3. [GetLastError] is called once after a failed open, start-document
    or write and never otherwise, not after a failed start-page either; the
    code it returns is printed in a line [Error code: n], and a run that
    does not call it prints no such line. *)
Theorem error_code_is_read_and_printed (h : handler) :
  count_calls LASTERROR (calls h) =
    (match reported_fatal (calls h) with
     | Some PageStartFailed | None => 0
     | Some _ => 1
     end)%nat /\
  match last_error (calls h) with
  | Some code => In (format ("Error code: %d" ++ nl) [code]) (printed (calls h))
  | None => mentions_prefix "Error code" (calls h) = false
  end.
Proof.
  by_script h r. paths; (split; [ reflexivity | first [ reflexivity | find_line ] ]).
Qed.

(** X4. When [GetLastError] is called, it is called right after the
    line that announces the failure, itself printed right after the call
    that failed: between the failed spooler call and the reading of its
    error code the program makes one call of [printf] and no other call. *)
Theorem error_code_follows_failed_call (h : handler) :
  count_calls LASTERROR (calls h) = 1%nat ->
  match rev (before_call LASTERROR (calls h)) with
  | p :: c :: _ =>
      kind p = PRINTF /\ is_spooler (kind c) = true /\ call_ok c = false
  | _ => False
  end.
Proof.
  by_script h r. paths; intros Hc; try discriminate Hc; repeat split.
Qed.

Lemma error_code_follows_failed_call_witness :
  match rev (before_call LASTERROR (calls (handler_of write_fails))) with
  | p :: c :: _ =>
      kind p = PRINTF /\ is_spooler (kind c) = true /\ call_ok c = false
  | _ => False
  end.
Proof.
  apply (error_code_follows_failed_call (handler_of write_fails)). reflexivity.
Defined.

(** X5. Every call made on a handle is made on the handle that
    [OpenPrinter] stored, and only in a run where [OpenPrinter] succeeded. *)
Theorem calls_use_opened_handle (h : handler) (c : entry) (hp : HANDLE) :
  In c (calls h) -> handle_of c = Some hp ->
  succeeded OPEN (calls h) = true /\ opened_handle (calls h) = Some hp.
Proof.
  revert c hp. by_script h r. paths; intros c hp Hin;
    repeat (destruct Hin as [<- | Hin]; [ try discriminate | ]);
    try contradiction;
    intros [= <-]; split; reflexivity.
Qed.

Lemma calls_use_opened_handle_witness :
  succeeded OPEN (calls (handler_of page_refused)) = true /\
  opened_handle (calls (handler_of page_refused)) = Some 4096.
Proof.
  apply (calls_use_opened_handle (handler_of page_refused)
           (Entry (ClosePrinter 4096) 0)).
  - vm_compute. tauto.
  - reflexivity.
Defined.

(** X6. Every call of [WritePrinter] is given the whole array [data] and
    a size that is the length of the buffer it is given. *)
Theorem write_size_is_buffer_length (h : handler) (c : entry)
    (buf : list byte) (cb : DWORD) :
  In c (calls h) -> write_args c = Some (buf, cb) ->
  buf = data /\ cb = sizeof buf.
Proof.
  revert c buf cb. by_script h r. paths; intros c buf cb Hin;
    repeat (destruct Hin as [<- | Hin]; [ try discriminate | ]);
    try contradiction;
    intros [= <- <-]; split; reflexivity.
Qed.

Lemma write_size_is_buffer_length_witness :
  data = data /\ 28 = sizeof data.
Proof.
  apply (write_size_is_buffer_length (handler_of write_fails)
           (Entry (WritePrinter 4096 data 28) (0, 0))).
  - vm_compute. tauto.
  - reflexivity.
Defined.

(** ** Progress lines *)

(** X7. For the four steps before teardown the progress line tells the
    truth: [OK: Printer opened], [OK: Document started], [OK: Page started]
    and [OK: Wrote] are each printed exactly when the step succeeded. *)
Theorem setup_lines_mean_success (h : handler) :
  mentions ("OK: Printer opened" ++ nl) (calls h) = succeeded OPEN (calls h) /\
  mentions_prefix "OK: Document started" (calls h) = succeeded STARTDOC (calls h) /\
  mentions ("OK: Page started" ++ nl) (calls h) = succeeded STARTPAGE (calls h) /\
  mentions_prefix "OK: Wrote" (calls h) = succeeded WRITE (calls h).
Proof.
  by_script h r. paths; repeat split.
Qed.

(** X8. The job identifier [StartDocPrinter] returned, when it is not
    zero, is the one printed in the line [OK: Document started]. *)
Theorem job_id_is_printed (h : handler) (j : DWORD) :
  job_id (calls h) = Some j -> j <> 0 ->
  In (format ("OK: Document started (Job ID: %d)" ++ nl) [j]) (printed (calls h)).
Proof.
  revert j. by_script h r. paths; intros j Hj Hnz; try discriminate Hj;
    injection Hj as <-;
    try (exfalso; apply Hnz; apply Z.eqb_eq; assumption);
    find_line.
Qed.

Lemma job_id_is_printed_witness :
  In (format ("OK: Document started (Job ID: %d)" ++ nl) [7])
     (printed (calls (handler_of page_refused))).
Proof.
  apply (job_id_is_printed (handler_of page_refused) 7).
  - reflexivity.
  - discriminate.
Defined.

(** X9. In a run that exits with code 1 nothing is printed once teardown
    has begun: no line follows a call of [EndPagePrinter], [EndDocPrinter]
    or [ClosePrinter], whatever the call returned. *)
Theorem failed_run_tears_down_silently (h : handler) :
  exit_code h = 1 ->
  printed (after_call ENDPAGE (calls h)) = [] /\
  printed (after_call ENDDOC (calls h)) = [] /\
  printed (after_call CLOSE (calls h)) = [].
Proof.
  by_script h r. paths; intros He; try discriminate He; repeat split.
Qed.

Lemma failed_run_tears_down_silently_witness :
  printed (after_call ENDPAGE (calls (handler_of write_fails))) = [] /\
  printed (after_call ENDDOC (calls (handler_of write_fails))) = [] /\
  printed (after_call CLOSE (calls (handler_of write_fails))) = [].
Proof.
  apply (failed_run_tears_down_silently (handler_of write_fails)). reflexivity.
Defined.
